(** * Mathex: the MathProvider coordinator, the MathKeyboard button handler
      and the MathInput mount sequence, embedded in Rocq.

    Sources: src/unnamed/part_000 (MathProvider and keyboardData),
    src/unnamed/part_001 (MathKeyboard), src/src/components/MathInput/MathInput.tsx,
    src/src/types/index.ts (ButtonConfig). *)

From Stdlib Require Import String Ascii.
From stdpp Require Import base gmap strings list.

Open Scope string_scope.

(* ================================================================= *)
(** ** MathProvider (src/unnamed/part_000, lines 74-167) *)
(* ================================================================= *)

Module Provider.

(** [const DEBUG = false] and the [log] helper: nothing reaches the
    console while [DEBUG] is false. *)
Definition DEBUG : bool := false.

Inductive console_msg :=
| ConsoleLog (component action : string)
| ConsoleWarn (msg : string)
| ConsoleError (msg : string).

Definition log (component action : string) : list console_msg :=
  if DEBUG then [ConsoleLog component action] else [].

(** An update queued on the [useState] hook of [activeInputId]:
    [setActiveInputId(id)] (a plain value) or
    [setActiveInputId((current) => (current === id ? null : current))]. *)
Inductive update :=
| SetTo (v : option string)
| ClearIf (id : string).

Definition apply_update (current : option string) (u : update) : option string :=
  match u with
  | SetTo v => v
  | ClearIf id => if decide (current = Some id) then None else current
  end.

Section Coordinator.

(** [InputUpdateCallback]: the handlers are opaque values. *)
Context {Cb : Type}.

(** The provider's hook state:
    - [activeInputId]: the state value seen by the last render;
    - [activeInputIdRef]: [activeInputIdRef.current], assigned
      [activeInputId] during each render (line 83);
    - [pending]: the updates queued on the state hook since the last render;
    - [inputCallbacks]: [inputCallbacksRef.current], a [Map], updated in place. *)
Record provider := mkProvider {
  activeInputId : option string;
  activeInputIdRef : option string;
  pending : list update;
  inputCallbacks : gmap string Cb
}.

Definition initial : provider := mkProvider None None [] ∅.

(** The value [useState] returns at the next render: the queued updates
    applied in order to the last rendered value. *)
Definition next_active (s : provider) : option string :=
  fold_left apply_update (pending s) (activeInputId s).

(** A re-render of [MathProvider]: the queue is processed, and line 83
    copies the new state into the ref. *)
Definition render (s : provider) : provider :=
  let v := next_active s in
  mkProvider v v [] (inputCallbacks s).

(** [registerInput] (lines 91-94): [inputCallbacksRef.current.set(id, cb)]. *)
Definition registerInput (id : string) (updateCallback : Cb) (s : provider) : provider :=
  mkProvider (activeInputId s) (activeInputIdRef s) (pending s)
    (<[id := updateCallback]> (inputCallbacks s)).

(** [unregisterInput] (lines 99-103): delete from the map, then queue the
    functional update that clears a matching active id. *)
Definition unregisterInput (id : string) (s : provider) : provider :=
  mkProvider (activeInputId s) (activeInputIdRef s) (pending s ++ [ClearIf id])
    (delete id (inputCallbacks s)).

(** [setActiveInput] (lines 109-112): [setActiveInputId(id)]. *)
Definition setActiveInput (id : string) (s : provider) : provider :=
  mkProvider (activeInputId s) (activeInputIdRef s) (pending s ++ [SetTo (Some id)])
    (inputCallbacks s).

(** JavaScript truthiness of a [string | null]: [null] and [""] are falsy. *)
Definition truthy_id (o : option string) : option string :=
  match o with
  | Some id => if String.eqb id "" then None else Some id
  | None => None
  end.

(** What one call of [insertAtCursor] does: the provider state after the
    call, what is written to the console, and the handler invocations
    [(callback, argument)] in order. *)
Record dispatch_out := mkOut {
  out_state : provider;
  out_console : list console_msg;
  out_calls : list (Cb * string)
}.

(** [insertAtCursor] (lines 118-144): reads the ref, not the state. *)
Definition insertAtCursor (s : provider) (latex : string) : dispatch_out :=
  let currentActiveId := activeInputIdRef s in
  let pre := log "MathProvider" "insertAtCursor called" in
  match truthy_id currentActiveId with
  | None =>
      mkOut s (pre ++ log "MathProvider" "WARNING: No active input to insert LaTeX into"
                   ++ [ConsoleWarn "No active input to insert LaTeX into"]) []
  | Some id =>
      match inputCallbacks s !! id with
      | Some updateCallback =>
          mkOut s (pre ++ log "MathProvider" "Calling update callback for active input")
            [(updateCallback, latex)]
      | None =>
          mkOut s (pre ++ log "MathProvider" "ERROR: No callback found for activeInputId") []
      end
  end.

(** The calls the adapters and the keyboard make on the provider, and the
    re-renders React performs between them. *)
Inductive event :=
| ERegister (id : string) (cb : Cb)
| EUnregister (id : string)
| ESetActive (id : string)
| EInsert (latex : string)
| ERender.

Definition step (s : provider) (e : event) : provider :=
  match e with
  | ERegister id cb => registerInput id cb s
  | EUnregister id => unregisterInput id s
  | ESetActive id => setActiveInput id s
  | EInsert latex => out_state (insertAtCursor s latex)
  | ERender => render s
  end.

Definition run (evs : list event) (s : provider) : provider :=
  fold_left step evs s.

End Coordinator.

Arguments provider : clear implicits.
Arguments event : clear implicits.
Arguments dispatch_out : clear implicits.

End Provider.

(* ================================================================= *)
(** ** Keyboard data (src/src/types/index.ts, src/unnamed/part_000 lines 176-628) *)
(* ================================================================= *)

Module Keyboard.

(** [ButtonConfig['type']], [['style']] and [['size']]. *)
Inductive button_type :=
| TSymbol | TNumber | TOperator | TFunction | TAction | TLetter | TVariable.

Inductive button_style := White | GrayLight | GrayMedium | GrayDark | Blue.

Inductive button_size := Standard | Wide | ExtraWide.

(** [ButtonConfig['dualChar']]. *)
Record dual_char := mkDual {
  primary : string;
  primaryLatex : string;
  secondary : string;
  secondaryLatex : string
}.

(** [ButtonConfig]; the optional fields are [option]s. *)
Record ButtonConfig := mkButton {
  display : string;
  latex : string;
  type : button_type;
  style : option button_style;
  size : option button_size;
  description : option string;
  dualChar : option dual_char
}.

Definition defaultLeftSection : list (list ButtonConfig) := [
  [ mkButton "x" "x" TVariable (Some White) None None None;
    mkButton "y" "y" TVariable (Some White) None None None;
    mkButton "aÂ²" "^{2}" TOperator (Some White) None None None;
    mkButton "aáµ‡" "^{}" TOperator (Some White) None None None ];
  [ mkButton "(" "(" TSymbol (Some White) None None None;
    mkButton ")" ")" TSymbol (Some White) None None None;
    mkButton "<" "<" TOperator (Some White) None None None;
    mkButton ">" ">" TOperator (Some White) None None None ];
  [ mkButton "|a|" "||" TOperator (Some White) None None None;
    mkButton "," "," TSymbol (Some White) None None None;
    mkButton "â‰¤" "\leq " TOperator (Some White) None None None;
    mkButton "â‰¥" "\geq " TOperator (Some White) None None None ];
  [ mkButton "A B C" "ABC_MODE" TAction (Some GrayLight) None None None;
    mkButton "ðŸ”Š" "SPEAK" TAction (Some GrayLight) None None None;
    mkButton "âˆš" "\sqrt{}" TFunction (Some White) None None None;
    mkButton "Ï€" "\pi " TSymbol (Some White) None None None ]
].

Definition defaultMiddleSection : list (list ButtonConfig) := [
  [ mkButton "7" "7" TNumber (Some GrayLight) None None None;
    mkButton "8" "8" TNumber (Some GrayLight) None None None;
    mkButton "9" "9" TNumber (Some GrayLight) None None None;
    mkButton "Ã·" "\div " TOperator (Some White) None None None ];
  [ mkButton "4" "4" TNumber (Some GrayLight) None None None;
    mkButton "5" "5" TNumber (Some GrayLight) None None None;
    mkButton "6" "6" TNumber (Some GrayLight) None None None;
    mkButton "Ã—" "\times " TOperator (Some White) None None None ];
  [ mkButton "1" "1" TNumber (Some GrayLight) None None None;
    mkButton "2" "2" TNumber (Some GrayLight) None None None;
    mkButton "3" "3" TNumber (Some GrayLight) None None None;
    mkButton "âˆ’" "-" TOperator (Some White) None None None ];
  [ mkButton "0" "0" TNumber (Some GrayLight) None None None;
    mkButton "." "." TNumber (Some GrayLight) None None None;
    mkButton "=" "=" TOperator (Some GrayLight) None None None;
    mkButton "+" "+" TOperator (Some White) None None None ]
].

Definition defaultRightSection : list (list ButtonConfig) := [
  [ mkButton "functions" "FUNCTIONS" TAction (Some GrayLight) (Some ExtraWide) None None ];
  [ mkButton "â†" "ARROW_LEFT" TAction (Some GrayLight) None None None;
    mkButton "â†’" "ARROW_RIGHT" TAction (Some GrayLight) None None None ];
  [ mkButton "âŒ«" "BACKSPACE" TAction (Some GrayLight) (Some ExtraWide) None None ];
  [ mkButton "â†µ" "ENTER" TAction (Some Blue) (Some ExtraWide) None None ]
].

Definition abcKeyboardRows : list (list ButtonConfig) := [
  [ mkButton "q" "q" TLetter (Some White) None None None;
    mkButton "w" "w" TLetter (Some White) None None None;
    mkButton "e" "e" TLetter (Some White) None None None;
    mkButton "r" "r" TLetter (Some White) None None None;
    mkButton "t" "t" TLetter (Some White) None None None;
    mkButton "y" "y" TLetter (Some White) None None None;
    mkButton "u" "u" TLetter (Some White) None None None;
    mkButton "i" "i" TLetter (Some White) None None None;
    mkButton "o" "o" TLetter (Some White) None None None;
    mkButton "p" "p" TLetter (Some White) None None None ];
  [ mkButton "a" "a" TLetter (Some White) None None None;
    mkButton "s" "s" TLetter (Some White) None None None;
    mkButton "d" "d" TLetter (Some White) None None None;
    mkButton "f" "f" TLetter (Some White) None None None;
    mkButton "g" "g" TLetter (Some White) None None None;
    mkButton "h" "h" TLetter (Some White) None None None;
    mkButton "j" "j" TLetter (Some White) None None None;
    mkButton "k" "k" TLetter (Some White) None None None;
    mkButton "l" "l" TLetter (Some White) None None None;
    mkButton "Î¸" "\theta " TSymbol (Some White) None None None ];
  [ mkButton "â¬†" "SHIFT" TAction (Some GrayLight) (Some Wide) None None;
    mkButton "z" "z" TLetter (Some White) None None None;
    mkButton "x" "x" TLetter (Some White) None None None;
    mkButton "c" "c" TLetter (Some White) None None None;
    mkButton "v" "v" TLetter (Some White) None None None;
    mkButton "b" "b" TLetter (Some White) None None None;
    mkButton "n" "n" TLetter (Some White) None None None;
    mkButton "m" "m" TLetter (Some White) None None None;
    mkButton "âŒ«" "BACKSPACE" TAction (Some GrayLight) (Some Wide) None None ]
;
  [ mkButton "1 2 3" "123_MODE" TAction (Some GrayLight) (Some Wide) None None;
    mkButton "aáµ¦" "SUBSCRIPT" TAction (Some White) None None None;
    mkButton "! %" "DUAL_EXCLAIM_PERCENT" TSymbol (Some White) None None
      (Some (mkDual "!" "!" "%" "%"));
    mkButton "[ ]" "DUAL_BRACKETS" TSymbol (Some White) None None
      (Some (mkDual "[" "[" "]" "]"));
    mkButton "{ }" "DUAL_BRACES" TSymbol (Some White) None None
      (Some (mkDual "{" "\{" "}" "\}"));
    mkButton "~ :" "DUAL_TILDE_COLON" TSymbol (Some White) None None
      (Some (mkDual "~" "\sim " ":" ":"));
    mkButton ", '" "DUAL_COMMA_QUOTE" TSymbol (Some White) None None
      (Some (mkDual "," "," "'" "'"));
    mkButton "â†µ" "ENTER" TAction (Some Blue) (Some Wide) None None ]
].

(** [String.prototype.toUpperCase] on the ASCII letters; the letter buttons,
    the only ones it is applied to, have ASCII [display] and [latex]. *)
Definition ascii_upper (c : ascii) : ascii :=
  let n := nat_of_ascii c in
  if (97 <=? n)%nat && (n <=? 122)%nat then ascii_of_nat (n - 32)%nat else c.

Fixpoint toUpperCase (s : string) : string :=
  match s with
  | EmptyString => EmptyString
  | String c s' => String (ascii_upper c) (toUpperCase s')
  end.

(** [getUppercaseAbcKeyboard] (lines 596-627). *)
Definition upper_button (btn : ButtonConfig) : ButtonConfig :=
  match type btn with
  | TLetter =>
      mkButton (toUpperCase (display btn)) (toUpperCase (latex btn)) (type btn)
        (style btn) (size btn) (description btn) (dualChar btn)
  | _ =>
      if String.eqb (latex btn) "SUBSCRIPT" then
        mkButton "aáµ‡" "SUPERSCRIPT" (type btn) (style btn) (size btn)
          (description btn) (dualChar btn)
      else btn
  end.

Definition getUppercaseAbcKeyboard : list (list ButtonConfig) :=
  map (map upper_button) abcKeyboardRows.

(** Every button the keyboard can render: the three sections of the
    default mode and the ABC rows in both shift states. *)
Definition all_buttons : list ButtonConfig :=
  concat (defaultLeftSection ++ defaultMiddleSection ++ defaultRightSection
          ++ abcKeyboardRows ++ getUppercaseAbcKeyboard).

End Keyboard.

(* ================================================================= *)
(** ** MathKeyboard (src/unnamed/part_001) *)
(* ================================================================= *)

Module MathKeyboard.

Import Keyboard.

(** [type KeyboardMode = 'default' | 'abc']. *)
Inductive KeyboardMode := ModeDefault | ModeAbc.

(** The component's four [useState] hooks. *)
Record kb_state := mkKb {
  isVisible : bool;
  keyboardMode : KeyboardMode;
  isShiftActive : bool;
  isFunctionsOpen : bool
}.

Definition set_mode (m : KeyboardMode) (k : kb_state) : kb_state :=
  mkKb (isVisible k) m (isShiftActive k) (isFunctionsOpen k).

Definition set_shift (b : bool) (k : kb_state) : kb_state :=
  mkKb (isVisible k) (keyboardMode k) b (isFunctionsOpen k).

Definition set_functions_open (b : bool) (k : kb_state) : kb_state :=
  mkKb (isVisible k) (keyboardMode k) (isShiftActive k) b.

(** The result of one click: the keyboard state once its queued updates
    are rendered, and the strings passed to [mathContext.insertAtCursor]
    (the Coordinator's dispatch), in order. *)
Record click_out := mkClick {
  kb_after : kb_state;
  dispatched : list string
}.

(** [if (mathContext) { mathContext.insertAtCursor(l); }]. *)
Definition insert (hasContext : bool) (l : string) : list string :=
  if hasContext then [l] else [].

Definition is_letter (t : button_type) : bool :=
  match t with TLetter => true | _ => false end.

(** [handleButtonClick] (lines 87-203). [hasContext] is [!!mathContext];
    [k] is the state the callback closes over (the last render). *)
Definition handleButtonClick (hasContext : bool) (k : kb_state) (button : ButtonConfig)
  : click_out :=
  match dualChar button with
  | Some d =>
      let activeLatex := if isShiftActive k then secondaryLatex d else primaryLatex d in
      if String.eqb activeLatex "SUBSCRIPT" then mkClick k (insert hasContext "SUBSCRIPT_BLOCK")
      else if String.eqb activeLatex "SUPERSCRIPT" then
        mkClick k (insert hasContext "SUPERSCRIPT_BLOCK")
      else mkClick k (insert hasContext activeLatex)
  | None =>
      let l := latex button in
      if String.eqb l "ABC_MODE" then
        mkClick (set_functions_open false (set_mode ModeAbc k)) []
      else if String.eqb l "123_MODE" then
        mkClick (set_shift false (set_mode ModeDefault k)) []
      else if String.eqb l "SHIFT" then
        mkClick (set_shift (negb (isShiftActive k)) k) []
      else if String.eqb l "SUBSCRIPT" then mkClick k (insert hasContext "SUBSCRIPT_BLOCK")
      else if String.eqb l "SUPERSCRIPT" then mkClick k (insert hasContext "SUPERSCRIPT_BLOCK")
      else if String.eqb l "FUNCTIONS" then
        mkClick (set_functions_open (negb (isFunctionsOpen k)) k) []
      else if String.eqb l "SPEAK" then mkClick k []
      else if String.eqb l "ARROW_LEFT" then mkClick k (insert hasContext "ARROW_LEFT")
      else if String.eqb l "ARROW_RIGHT" then mkClick k (insert hasContext "ARROW_RIGHT")
      else if String.eqb l "BACKSPACE" then mkClick k (insert hasContext "BACKSPACE")
      else if String.eqb l "ENTER" then mkClick k (insert hasContext "ENTER")
      else
        let out := insert hasContext l in
        if is_letter (type button) && isShiftActive k then mkClick (set_shift false k) out
        else mkClick k out
  end.

(** The [switch] cases that never reach the final [insertAtCursor(button.latex)]. *)
Definition special_latex : list string :=
  ["ABC_MODE"; "123_MODE"; "SHIFT"; "SUBSCRIPT"; "SUPERSCRIPT"; "FUNCTIONS"; "SPEAK";
   "ARROW_LEFT"; "ARROW_RIGHT"; "BACKSPACE"; "ENTER"].

End MathKeyboard.

(* ================================================================= *)
(** ** MathInput mount (src/src/components/MathInput/MathInput.tsx) *)
(* ================================================================= *)

Module MathInput.

(** A value thrown by [MQ.MathField(...)]: an [Error] or anything else. *)
Inductive thrown := ThrownError (message : string) | ThrownValue.

(** What the first mount depends on. *)
Record mount_env := mkEnv {
  inputId : string;
  mq_loaded : bool;                 (** [getMQ()] returns the interface *)
  mathfield_throws : option thrown; (** [MQ.MathField(...)] throws this *)
  onError_given : bool;
  hasContext : bool;                (** [!!mathContext] *)
  disabled : bool;
  readOnly : bool
}.

(** The observable effects of the mount, in order. *)
Inductive effect :=
| EffOnError (message : string)
| EffConsoleError (msg : string)
| EffRegister (id : string).

Record mount_out := mkMount {
  field_ready : bool;               (** [mathFieldRef.current !== null] *)
  effects : list effect;
  container_noninteractive : bool;  (** [contenteditable=false], no pointer events *)
  wrapper_disabled_class : bool     (** ['mathex-input--disabled'] in the class *)
}.

(** The initialization effect (lines 116-196) at mount: the container is
    rendered and [mathFieldRef.current] is still null. *)
Definition init_effect (env : mount_env) : bool * list effect :=
  if negb (mq_loaded env) then
    (false, [EffConsoleError "MathQuill is not loaded. Make sure to include MathQuill script in your HTML."])
  else
    match mathfield_throws env with
    | None => (true, [])
    | Some t =>
        (false,
         app (if onError_given env then
                match t with ThrownError m => [EffOnError m] | ThrownValue => [] end
              else [])
             [EffConsoleError "Failed to initialize MathQuill:"])
    end.

(** The registration effect (lines 284-299): depends only on the context. *)
Definition registration_effect (env : mount_env) : list effect :=
  if hasContext env then [EffRegister (inputId env)] else [].

(** The disabled/readOnly effect (lines 304-316): acts only when the field exists. *)
Definition disabled_effect (ready : bool) (env : mount_env) : bool :=
  ready && (disabled env || readOnly env).

(** Effects run in declaration order after the first render. *)
Definition mount (env : mount_env) : mount_out :=
  let (ready, e1) := init_effect env in
  mkMount ready (e1 ++ registration_effect env) (disabled_effect ready env) (disabled env).

(** The editing operations [handleKeyboardInsertion] performs on the field. *)
Inductive mq_op := Keystroke (key : string) | Blur | Cmd (c : string) | Write (l : string) | Focus.

(** [handleKeyboardInsertion] (lines 226-277). *)
Definition handleKeyboardInsertion (ready : bool) (insertedLatex : string) : list mq_op :=
  if negb ready then []
  else if String.eqb insertedLatex "BACKSPACE" then [Keystroke "Backspace"]
  else if String.eqb insertedLatex "ARROW_LEFT" then [Keystroke "Left"]
  else if String.eqb insertedLatex "ARROW_RIGHT" then [Keystroke "Right"]
  else if String.eqb insertedLatex "ENTER" then [Blur]
  else if String.eqb insertedLatex "SUBSCRIPT_BLOCK" then [Cmd "_"; Focus]
  else if String.eqb insertedLatex "SUPERSCRIPT_BLOCK" then [Cmd "^"; Focus]
  else [Write insertedLatex; Focus].

End MathInput.

(* ================================================================= *)
(** ** MathKeyboard: visibility, outside clicks, functions, rendering
       (src/unnamed/part_001) *)
(* ================================================================= *)

Module KeyboardUI.

Import Keyboard MathKeyboard.
Local Open Scope list_scope.

(** [toggleKeyboard] (lines 73-82): the new visibility, the functions panel
    closed when hiding, and the values passed to [onVisibilityChange]
    ([hasCallback] is whether the prop is given). *)
Definition toggleKeyboard (hasCallback : bool) (k : kb_state) : kb_state * list bool :=
  let newValue := negb (isVisible k) in
  (mkKb newValue (keyboardMode k) (isShiftActive k)
        (if negb newValue then false else isFunctionsOpen k),
   if hasCallback then [newValue] else []).

(** Where a [mousedown] lands: inside the keyboard element, or inside an
    element with class [mathex-input]. *)
Record click_target := mkTarget {
  in_keyboard : bool;
  in_math_input : bool
}.

(** [handleClickOutside] (lines 231-246). *)
Definition handleClickOutside (hasCallback : bool) (k : kb_state) (t : click_target)
  : kb_state * list bool :=
  if negb (isVisible k) then (k, [])
  else if in_keyboard t then (k, [])
  else if in_math_input t then (k, [])
  else (mkKb false (keyboardMode k) (isShiftActive k) false,
        if hasCallback then [false] else []).

(** [handleFunctionClick] (lines 209-225). *)
Definition handleFunctionClick (hasContext : bool) (k : kb_state) (latex : string) : click_out :=
  mkClick (set_functions_open false k) (insert hasContext latex).

(** The buttons on screen (lines 328-376 and 448-476): none while hidden,
    the three default sections in default mode, the ABC rows (upper case
    while shift is active) in ABC mode. *)
Definition rendered_buttons (k : kb_state) : list ButtonConfig :=
  if isVisible k then
    match keyboardMode k with
    | ModeDefault =>
        concat defaultLeftSection ++ concat defaultMiddleSection ++ concat defaultRightSection
    | ModeAbc => concat (if isShiftActive k then getUppercaseAbcKeyboard else abcKeyboardRows)
    end
  else [].

(** [cond && 'cls'] in a class array, and [.filter(Boolean)]. *)
Definition when_class (c : bool) (cls : string) : option string :=
  if c then Some cls else None.

Definition filter_classes (l : list (option string)) : list string := omap id l.

Definition style_is (s : button_style) (b : ButtonConfig) : bool :=
  match style b, s with
  | Some Blue, Blue | Some GrayLight, GrayLight | Some White, White
  | Some GrayMedium, GrayMedium | Some GrayDark, GrayDark => true
  | _, _ => false
  end.

Definition size_is (z : button_size) (b : ButtonConfig) : bool :=
  match size b, z with
  | Some Wide, Wide | Some ExtraWide, ExtraWide | Some Standard, Standard => true
  | _, _ => false
  end.

(** [buttonClasses] and [innerClasses] of [renderButton] (lines 267-283),
    before [.join(' ')]. *)
Definition buttonClassList (b : ButtonConfig) : list string :=
  filter_classes
    [Some "dcg-keypad-btn-container";
     when_class (size_is Wide b) "dcg-wide";
     when_class (size_is ExtraWide b) "dcg-extra-wide"].

Definition innerClassList (k : kb_state) (b : ButtonConfig) : list string :=
  filter_classes
    [Some "dcg-keypad-btn";
     when_class (style_is Blue b) "dcg-btn-blue";
     when_class (style_is GrayLight b) "dcg-btn-light-gray";
     when_class (style_is White b) "dcg-btn-white";
     when_class (String.eqb (latex b) "SHIFT" && isShiftActive k) "dcg-active"].

(** The two spans of a dual-character button (lines 298-302). *)
Definition dual_primary_class (k : kb_state) : string :=
  "dcg-dual-primary " ++ (if isShiftActive k then "dcg-blurred" else "dcg-clear").

Definition dual_secondary_class (k : kb_state) : string :=
  "dcg-dual-secondary " ++ (if isShiftActive k then "dcg-clear" else "dcg-blurred").

End KeyboardUI.

(* ================================================================= *)
(** ** MathInput: id, focus, edits, controlled value
       (src/src/components/MathInput/MathInput.tsx) *)
(* ================================================================= *)

Module MathInputUI.

Import MathInput.

(** [inputId] (line 98): [id || `math-input-${suffix}`], where [suffix] is
    [Math.random().toString(36).substr(2, 9)], any string here. *)
Definition inputId_of (id : option string) (suffix : string) : string :=
  match id with
  | Some i => if String.eqb i "" then "math-input-" ++ suffix else i
  | None => "math-input-" ++ suffix
  end.

Inductive focus_effect := MQFocus | SetActive (id : string).

(** [handleFocus] (lines 213-221), the wrapper's [onClick]. *)
Definition handleFocus (ready disabled readOnly hasContext : bool) (inputId : string)
  : list focus_effect :=
  if ready && negb disabled && negb readOnly then
    MQFocus :: (if hasContext then [SetActive inputId] else [])
  else [].

(** The [edit] handler (lines 133-141), closed over the props of the first
    render: the value given to [setUncontrolledValue], if any, and the
    calls of [onChange]. *)
Record edit_out := mkEdit {
  set_uncontrolled : option string;
  onChange_calls : list string
}.

Definition edit_handler (isControlled onChange_given : bool) (newLatex : string) : edit_out :=
  let calls := if onChange_given then [newLatex] else [] in
  if isControlled then mkEdit None calls else mkEdit (Some newLatex) calls.

(** The controlled-value effect (lines 201-208): the value written into the
    field with [mathField.latex(v)], if any. *)
Definition sync_controlled (ready isControlled : bool) (fieldLatex controlledValue : string)
  : option string :=
  if ready && isControlled then
    if String.eqb fieldLatex controlledValue then None else Some controlledValue
  else None.

(** The field's content after the effect. *)
Definition field_after_sync (ready isControlled : bool) (fieldLatex controlledValue : string)
  : string :=
  match sync_controlled ready isControlled fieldLatex controlledValue with
  | Some v => v
  | None => fieldLatex
  end.

(** The whole path of a keyboard click: the strings the keyboard dispatches,
    the Coordinator's routing, and the registered [handleKeyboardInsertion]
    of the target adapter. A registered handler is represented by whether
    its adapter's [mathFieldRef.current] is set. *)
Definition deliver (s : Provider.provider bool) (l : string) : list mq_op :=
  flat_map (fun c => handleKeyboardInsertion (fst c) (snd c))
    (Provider.out_calls (Provider.insertAtCursor s l)).

Definition click_to_ops (s : Provider.provider bool) (k : MathKeyboard.kb_state)
  (b : Keyboard.ButtonConfig) : list mq_op :=
  flat_map (deliver s) (MathKeyboard.dispatched (MathKeyboard.handleButtonClick true k b)).

End MathInputUI.

(* ================================================================= *)
(** * Properties of the coordinator *)
(* ================================================================= *)

Module ProviderFacts.

Import Provider.
Local Open Scope list_scope.

(** Handlers in the concrete runs are numbered. *)
Definition focus_race_run : list (event nat) :=
  [ERegister "A" 1; ERegister "B" 2; ESetActive "B"; ERender; ESetActive "A"].

Example focus_race_dispatch :
  out_calls (insertAtCursor (run focus_race_run initial) "x") = [(2, "x")].
Proof. reflexivity. Qed.

Example focus_race_rendered :
  out_calls (insertAtCursor (render (run focus_race_run initial)) "x") = [(1, "x")].
Proof. reflexivity. Qed.

Section Lemmas.

Context {Cb : Type}.
Implicit Types (s : provider Cb) (evs : list (event Cb)).

Lemma next_active_setActiveInput s id :
  next_active (setActiveInput id s) = Some id.
Proof. unfold next_active, setActiveInput; simpl. by rewrite fold_left_app. Qed.

Lemma next_active_unregisterInput s id :
  next_active (unregisterInput id s) = apply_update (next_active s) (ClearIf id).
Proof. unfold next_active, unregisterInput; simpl. by rewrite fold_left_app. Qed.

Lemma next_active_registerInput s id cb :
  next_active (registerInput id cb s) = next_active s.
Proof. reflexivity. Qed.

Lemma next_active_render s : next_active (render s) = next_active s.
Proof. reflexivity. Qed.

Lemma next_active_step s e :
  next_active (step s e) =
    match e with
    | ESetActive id => Some id
    | EUnregister id => apply_update (next_active s) (ClearIf id)
    | _ => next_active s
    end.
Proof.
  destruct e; simpl.
  - apply next_active_registerInput.
  - apply next_active_unregisterInput.
  - apply next_active_setActiveInput.
  - unfold insertAtCursor.
    destruct (truthy_id _); [destruct (_ !! _)|]; reflexivity.
  - apply next_active_render.
Qed.

Lemma run_app evs1 evs2 s : run (evs1 ++ evs2) s = run evs2 (run evs1 s).
Proof. unfold run. apply fold_left_app. Qed.

Lemma run_snoc evs e s : run (evs ++ [e]) s = step (run evs s) e.
Proof. by rewrite run_app. Qed.

Lemma callbacks_insert s latex :
  out_state (insertAtCursor s latex) = s.
Proof.
  unfold insertAtCursor. destruct (truthy_id _); [destruct (_ !! _)|]; reflexivity.
Qed.

(** The entry a sequence of calls leaves for [id]: the handler of its last
    registration, unless an unregistration of [id] came after it. *)
Definition binding_step (id : string) (acc : option Cb) (e : event Cb) : option Cb :=
  match e with
  | ERegister id' cb => if decide (id' = id) then Some cb else acc
  | EUnregister id' => if decide (id' = id) then None else acc
  | _ => acc
  end.

Lemma lookup_step s e id :
  inputCallbacks (step s e) !! id = binding_step id (inputCallbacks s !! id) e.
Proof.
  destruct e as [id' cb|id'|id'|latex|]; simpl.
  - destruct (decide (id' = id)) as [->|Hne].
    + apply lookup_insert_eq.
    + by apply lookup_insert_ne.
  - destruct (decide (id' = id)) as [->|Hne].
    + apply lookup_delete_eq.
    + by apply lookup_delete_ne.
  - reflexivity.
  - by rewrite callbacks_insert.
  - reflexivity.
Qed.

Lemma lookup_run evs s id :
  inputCallbacks (run evs s) !! id = fold_left (binding_step id) evs (inputCallbacks s !! id).
Proof.
  revert s. induction evs as [|e evs IH]; intros s; [reflexivity|].
  simpl. rewrite <- lookup_step. apply IH.
Qed.

(** A sequence with no [setActive] call never makes [x] the active id. *)
Lemma run_keeps_not_active post s x :
  (forall y, ~ In (ESetActive y) post) ->
  next_active s <> Some x ->
  next_active (run post s) <> Some x.
Proof.
  revert s. induction post as [|e post IH]; intros s Hno Hs; [exact Hs|].
  simpl. apply IH; [intros y Hy; apply (Hno y); by right|].
  rewrite next_active_step. destruct e as [| id | id | |]; try exact Hs.
  - simpl. case_decide; [discriminate|exact Hs].
  - exfalso. apply (Hno id). by left.
Qed.

Lemma run_unregister_not_active post s x :
  (forall y, ~ In (ESetActive y) post) ->
  In (EUnregister x) post ->
  next_active (run post s) <> Some x.
Proof.
  revert s. induction post as [|e post IH]; intros s Hno Hin; [destruct Hin|].
  simpl. destruct Hin as [->|Hin].
  - apply run_keeps_not_active; [intros y Hy; apply (Hno y); by right|].
    rewrite next_active_step. simpl. case_decide; [discriminate|done].
  - apply IH; [intros y Hy; apply (Hno y); by right|exact Hin].
Qed.

Lemma binding_fold_is_Some post x (acc : option Cb) :
  ~ In (EUnregister x) post ->
  is_Some acc \/ (exists cb, In (ERegister x cb) post) ->
  is_Some (fold_left (binding_step x) post acc).
Proof.
  revert acc. induction post as [|e post IH]; intros acc Hno Hreg; simpl.
  - destruct Hreg as [H|[cb []]]; exact H.
  - apply IH; [intros Hin; apply Hno; by right|].
    destruct Hreg as [Hs|[cb [Hin|Hin]]].
    + destruct e as [id' cb'|id'| | |]; simpl; try case_decide; eauto.
      subst. exfalso. apply Hno. by left.
    + subst e. simpl. rewrite decide_True by done. left. eauto.
    + destruct e as [id' cb'|id'| | |]; simpl; try case_decide; eauto.
Qed.

(** C1 (amended): once a re-render has committed [setActiveInput A], so that
    [activeInputIdRef] holds [A], dispatching [cmd] invokes the handler
    registered for [A] with [cmd] exactly once and no other handler. Within
    the same task as [setActiveInput A], before that re-render, the ref is
    unchanged and dispatch produces exactly the console output and the
    handler calls it produced before the call, i.e. it still routes to the
    previously rendered active id. *)
Theorem dispatch_after_render_routes_to_active s A hA cmd :
  A <> "" ->
  inputCallbacks s !! A = Some hA ->
  (out_calls (insertAtCursor (render (setActiveInput A s)) cmd) = [(hA, cmd)]) /\
  (activeInputIdRef (setActiveInput A s) = activeInputIdRef s) /\
  (out_console (insertAtCursor (setActiveInput A s) cmd) = out_console (insertAtCursor s cmd)) /\
  out_calls (insertAtCursor (setActiveInput A s) cmd) = out_calls (insertAtCursor s cmd).
Proof.
  intros HA Hcb. split.
  - unfold insertAtCursor, render.
    rewrite next_active_setActiveInput. simpl.
    destruct (String.eqb_spec A "") as [->|_]; [contradiction|].
    by rewrite Hcb.
  - split; [reflexivity|]. unfold insertAtCursor. simpl.
    destruct (truthy_id (activeInputIdRef s)) as [id|];
      [destruct (inputCallbacks s !! id)|]; split; reflexivity.
Qed.

(** C2: after any sequence of calls (and re-renders), if the active id is
    [x], the sequence has a last [setActive], its argument is [x], and no
    [unregisterHandler x] came after it; unregistering the active id
    clears it, unregistering another id leaves it as it is. *)
Theorem active_is_last_setActive_not_unregistered :
  (forall (evs : list (event Cb)) x,
     activeInputId (render (run evs initial)) = Some x ->
     exists pre post, evs = pre ++ ESetActive x :: post /\
       (forall y, ~ In (ESetActive y) post) /\ ~ In (EUnregister x) post) /\
  (forall s id,
     activeInputId (render (unregisterInput id s)) =
       if decide (activeInputId (render s) = Some id) then None
       else activeInputId (render s)).
Proof.
  split.
  - intros evs. induction evs as [|e evs IH] using rev_ind; intros x Hx.
    + discriminate.
    + simpl in Hx. rewrite run_snoc, next_active_step in Hx.
      destruct e as [id cb|id|id|latex|].
      1,4,5: destruct (IH x Hx) as (pre & post & -> & Hno & Hnu);
        eexists pre, (post ++ [_]); rewrite <- app_assoc; split; [reflexivity|];
        split; [intros y; rewrite in_app_iff; intros [Hy|[Hy|[]]];
                [exact (Hno y Hy)|discriminate]|];
        rewrite in_app_iff; intros [Hy|[Hy|[]]]; [exact (Hnu Hy)|discriminate].
      * simpl in Hx. case_decide; [discriminate|].
        destruct (IH x Hx) as (pre & post & -> & Hno & Hnu).
        exists pre, (post ++ [EUnregister id]); rewrite <- app_assoc.
        split; [done|]. split.
        -- intros y. rewrite in_app_iff. intros [Hy|[Hy|[]]]; [exact (Hno y Hy)|discriminate].
        -- rewrite in_app_iff. intros [Hy|[Hy|[]]]; [exact (Hnu Hy)|].
           inversion Hy; subst. congruence.
      * injection Hx as ->. exists evs, []. split; [done|]. split; [intros y []|intros []].
  - intros s' id. simpl. apply next_active_unregisterInput.
Qed.

(** C3: the handler map after a sequence of calls binds each id to the
    handler of its last registration, unless it was unregistered after it;
    calls on another id leave an entry unchanged; unregistering an absent id
    leaves the map as it is. *)
Theorem handlers_after_register_unregister :
  (forall (evs : list (event Cb)) id,
     inputCallbacks (run evs initial) !! id = fold_left (binding_step id) evs None) /\
  (forall s id id' cb, id' <> id ->
     inputCallbacks (registerInput id' cb s) !! id = inputCallbacks s !! id /\
     inputCallbacks (unregisterInput id' s) !! id = inputCallbacks s !! id) /\
  (forall s id, inputCallbacks s !! id = None ->
     inputCallbacks (unregisterInput id s) = inputCallbacks s).
Proof.
  split; [|split].
  - intros evs id. rewrite lookup_run. reflexivity.
  - intros s' id id' cb Hne. simpl. split.
    + by apply lookup_insert_ne.
    + by apply lookup_delete_ne.
  - intros s' id Hnone. simpl. by apply delete_id.
Qed.

(** C4 (the no-active-target half): with no truthy active id in the ref,
    dispatch invokes no handler, leaves the provider state as it is and
    writes one [console.warn]. *)
Lemma dispatch_without_active_warns s latex :
  truthy_id (activeInputIdRef s) = None ->
  insertAtCursor s latex =
    mkOut s [ConsoleWarn "No active input to insert LaTeX into"] [].
Proof. intros Hn. unfold insertAtCursor. by rewrite Hn. Qed.

(** C5 (amended): [setActiveInput] does not check membership, but the active
    id [x] is a key of the handler map whenever [x] was registered when
    [setActive x] was last called, or was registered after that call. *)
Theorem active_registered_stays_registered pre post x :
  (forall y, ~ In (ESetActive y) post) ->
  is_Some (inputCallbacks (run pre (initial (Cb:=Cb))) !! x) \/
    (exists cb, In (ERegister x cb) post) ->
  activeInputId (render (run (pre ++ ESetActive x :: post) initial)) = Some x ->
  is_Some (inputCallbacks (run (pre ++ ESetActive x :: post) initial) !! x).
Proof.
  intros Hno Hreg Hact. simpl in Hact.
  rewrite run_app in Hact |- *. simpl in Hact |- *.
  assert (Hnu : ~ In (EUnregister x) post).
  { intros Hin. exact (run_unregister_not_active post _ x Hno Hin Hact). }
  rewrite lookup_run. apply binding_fold_is_Some; [exact Hnu|].
  exact Hreg.
Qed.

(** C7: [registerInput] writes the entry of [id] and nothing else: the
    active id (rendered, in the ref and queued) is untouched, other entries
    are untouched, and registering twice keeps the last handler. *)
Theorem registerInput_frame :
  (forall s id cb,
     activeInputId (registerInput id cb s) = activeInputId s /\
     activeInputIdRef (registerInput id cb s) = activeInputIdRef s /\
     next_active (registerInput id cb s) = next_active s /\
     inputCallbacks (registerInput id cb s) !! id = Some cb) /\
  (forall s id id' cb, id' <> id ->
     inputCallbacks (registerInput id' cb s) !! id = inputCallbacks s !! id) /\
  (forall s id cb1 cb2,
     registerInput id cb2 (registerInput id cb1 s) = registerInput id cb2 s).
Proof.
  split; [|split].
  - intros s' id cb. repeat split. simpl. apply lookup_insert_eq.
  - intros s' id id' cb Hne. simpl. by apply lookup_insert_ne.
  - intros s' id cb1 cb2. unfold registerInput. simpl. by rewrite insert_insert_eq.
Qed.

End Lemmas.

(** C1: within one synchronous task, [setActive A] does not reach the ref
    read by dispatch: the command goes to the previously rendered [B]. *)
Lemma setActive_same_task_routes_to_previous :
  out_calls (insertAtCursor (run focus_race_run initial) "x") = [(2, "x")] /\
  out_calls (insertAtCursor (run focus_race_run initial) "x") <> [(1, "x")].
Proof. split; [reflexivity|discriminate]. Qed.

Lemma dispatch_after_render_routes_to_active_witness :
  out_calls (insertAtCursor
    (render (setActiveInput "A" (run [ERegister "A" 1; ERegister "B" 2] initial))) "x")
  = [(1, "x")].
Proof.
  apply (proj1 (dispatch_after_render_routes_to_active
                  (run [ERegister "A" 1; ERegister "B" 2] initial) "A" 1 "x"
                  ltac:(discriminate) eq_refl)).
Defined.

Lemma active_is_last_setActive_not_unregistered_witness :
  exists pre post,
    [ERegister "A" 1; ESetActive "A"; EUnregister "B"; ERender] =
      pre ++ ESetActive "A" :: post /\
    (forall y, ~ In (ESetActive y) post) /\ ~ In (@EUnregister nat "A") post.
Proof.
  apply (proj1 (@active_is_last_setActive_not_unregistered nat)). reflexivity.
Defined.

(** C4: an active id left in the ref with no entry in the map (the adapter
    unmounted, the provider not yet re-rendered): no handler runs, and
    nothing reaches the console either, since the only report is a
    [DEBUG]-gated [log]. *)
Definition unmount_race_run : list (event nat) :=
  [ERegister "math-input-1" 1; ESetActive "math-input-1"; ERender;
   EUnregister "math-input-1"].

Lemma dispatch_missing_handler_is_silent :
  let s := run unmount_race_run initial in
  activeInputIdRef s = Some "math-input-1" /\
  inputCallbacks s !! "math-input-1" = None /\
  insertAtCursor s "x" = mkOut s [] [].
Proof. split; [reflexivity|split; reflexivity]. Qed.

(** C5: an id activated before it is registered is active with no entry. *)
Lemma active_without_handler_entry :
  let s := run [ESetActive "A"; ERender] (initial (Cb:=nat)) in
  activeInputId s = Some "A" /\ inputCallbacks s !! "A" = None.
Proof. split; reflexivity. Qed.

Lemma active_registered_stays_registered_witness :
  is_Some (inputCallbacks
    (run ([ERegister "A" 1] ++ ESetActive "A" :: [EUnregister "B"; ERender]) (initial (Cb:=nat)))
    !! "A").
Proof.
  apply (active_registered_stays_registered [ERegister "A" 1] [EUnregister "B"; ERender] "A").
  - intros y [H|[H|[]]]; discriminate.
  - left. simpl. eexists. reflexivity.
  - reflexivity.
Defined.

Lemma registerInput_frame_witness :
  inputCallbacks (registerInput "B" 2 (registerInput "A" 1 (initial (Cb:=nat)))) !! "A" =
  inputCallbacks (registerInput "A" 1 (initial (Cb:=nat))) !! "A".
Proof.
  apply (proj1 (proj2 (@registerInput_frame nat))). discriminate.
Defined.

Lemma handlers_after_register_unregister_witness :
  inputCallbacks (unregisterInput "B" (registerInput "A" 1 (initial (Cb:=nat)))) =
  inputCallbacks (registerInput "A" 1 (initial (Cb:=nat))).
Proof.
  apply (proj2 (proj2 (@handlers_after_register_unregister nat))). reflexivity.
Defined.

Lemma dispatch_without_active_warns_witness :
  insertAtCursor (initial (Cb:=nat)) "x" =
    mkOut initial [ConsoleWarn "No active input to insert LaTeX into"] [].
Proof. apply dispatch_without_active_warns. reflexivity. Defined.

End ProviderFacts.

(* ================================================================= *)
(** * Properties of the keyboard button handler *)
(* ================================================================= *)

Module KeyboardFacts.

Import Keyboard MathKeyboard.

Definition k0 : kb_state := mkKb true ModeAbc false false.

Example speak_click :
  handleButtonClick true k0 (mkButton "x" "SPEAK" TAction None None None None) =
  mkClick k0 [].
Proof. reflexivity. Qed.

Example letter_click_shifted :
  handleButtonClick true (set_shift true k0) (mkButton "Q" "Q" TLetter None None None None) =
  mkClick k0 ["Q"].
Proof. reflexivity. Qed.

(** A button without [dualChar] whose [latex] is none of the [switch] cases
    reaches the final [insertAtCursor(button.latex)]. *)
Lemma handle_plain ctx k b :
  dualChar b = None ->
  forallb (fun l => negb (String.eqb (latex b) l)) special_latex = true ->
  handleButtonClick ctx k b =
    if is_letter (type b) && isShiftActive k
    then mkClick (set_shift false k) (insert ctx (latex b))
    else mkClick k (insert ctx (latex b)).
Proof.
  intros Hd Hl. unfold handleButtonClick. rewrite Hd.
  simpl in Hl. rewrite !andb_true_iff, !negb_true_iff in Hl.
  destruct Hl as (H1 & H2 & H3 & H4 & H5 & H6 & H7 & H8 & H9 & H10 & H11 & _).
  by rewrite H1, H2, H3, H4, H5, H6, H7, H8, H9, H10, H11.
Qed.

(** A dual-mode button whose two variants are plain LaTeX inserts the
    variant the shift flag selects, and changes no keyboard state. *)
Lemma handle_dual ctx k b d :
  dualChar b = Some d ->
  String.eqb (primaryLatex d) "SUBSCRIPT" = false ->
  String.eqb (primaryLatex d) "SUPERSCRIPT" = false ->
  String.eqb (secondaryLatex d) "SUBSCRIPT" = false ->
  String.eqb (secondaryLatex d) "SUPERSCRIPT" = false ->
  handleButtonClick ctx k b =
    mkClick k (insert ctx (if isShiftActive k then secondaryLatex d else primaryLatex d)).
Proof.
  intros Hd H1 H2 H3 H4. unfold handleButtonClick. rewrite Hd.
  destruct (isShiftActive k); [by rewrite H3, H4|by rewrite H1, H2].
Qed.

(** Layout checks, evaluated on the tables. *)
Definition letter_plain (b : ButtonConfig) : bool :=
  if is_letter (type b) then
    match dualChar b with
    | None => forallb (fun l => negb (String.eqb (latex b) l)) special_latex
    | Some _ => false
    end
  else true.

Definition dual_plain (b : ButtonConfig) : bool :=
  match dualChar b with
  | Some d =>
      negb (String.eqb (primaryLatex d) "SUBSCRIPT" || String.eqb (primaryLatex d) "SUPERSCRIPT"
            || String.eqb (secondaryLatex d) "SUBSCRIPT"
            || String.eqb (secondaryLatex d) "SUPERSCRIPT")
  | None => true
  end.

Lemma all_letters_plain : forallb letter_plain all_buttons = true.
Proof. vm_compute. reflexivity. Qed.

Lemma all_duals_plain : forallb dual_plain all_buttons = true.
Proof. vm_compute. reflexivity. Qed.

Definition exclaim_plain (b : ButtonConfig) : bool :=
  if String.eqb (latex b) "DUAL_EXCLAIM_PERCENT" then
    match dualChar b with
    | Some d => String.eqb (primaryLatex d) "!" && String.eqb (secondaryLatex d) "%"
    | None => false
    end
  else true.

Lemma all_exclaim_plain : forallb exclaim_plain all_buttons = true.
Proof. vm_compute. reflexivity. Qed.

Lemma dual_button_click ctx k b d :
  In b all_buttons -> dualChar b = Some d ->
  handleButtonClick ctx k b =
    mkClick k (insert ctx (if isShiftActive k then secondaryLatex d else primaryLatex d)).
Proof.
  intros Hin Hd.
  pose proof (proj1 (forallb_forall _ _) all_duals_plain b Hin) as Hp.
  unfold dual_plain in Hp. rewrite Hd in Hp.
  rewrite !negb_orb, !andb_true_iff, !negb_true_iff in Hp.
  destruct Hp as [[[H1 H2] H3] H4].
  by apply handle_dual.
Qed.

(** The SPEAK button: second button of the fourth row of [defaultLeftSection]. *)
Definition speak_button : ButtonConfig :=
  nth 1 (nth 3 defaultLeftSection []) (mkButton "" "" TAction None None None None).

Ltac in_table := vm_compute; repeat (first [left; reflexivity | right]).

(** C8 (amended): with a provider present, the table of
    [handleButtonClick]: ABC_MODE, 123_MODE, SHIFT and FUNCTIONS are local
    state transitions, SPEAK does nothing, and every other activation is
    forwarded to the Coordinator's dispatch exactly once. *)
Theorem button_dispatch_table k b :
  (dualChar b = None -> latex b = "ABC_MODE" ->
     handleButtonClick true k b = mkClick (set_functions_open false (set_mode ModeAbc k)) []) /\
  (dualChar b = None -> latex b = "123_MODE" ->
     handleButtonClick true k b = mkClick (set_shift false (set_mode ModeDefault k)) []) /\
  (dualChar b = None -> latex b = "SHIFT" ->
     handleButtonClick true k b = mkClick (set_shift (negb (isShiftActive k)) k) []) /\
  (dualChar b = None -> latex b = "FUNCTIONS" ->
     handleButtonClick true k b = mkClick (set_functions_open (negb (isFunctionsOpen k)) k) []) /\
  (dualChar b = None -> latex b = "SPEAK" -> handleButtonClick true k b = mkClick k []) /\
  (~ (dualChar b = None /\ In (latex b) ["ABC_MODE"; "123_MODE"; "SHIFT"; "FUNCTIONS"; "SPEAK"]) ->
     length (dispatched (handleButtonClick true k b)) = 1).
Proof.
  unfold handleButtonClick.
  split; [intros Hd Hl; by rewrite Hd, Hl|].
  split; [intros Hd Hl; by rewrite Hd, Hl|].
  split; [intros Hd Hl; by rewrite Hd, Hl|].
  split; [intros Hd Hl; by rewrite Hd, Hl|].
  split; [intros Hd Hl; by rewrite Hd, Hl|].
  intros Hn. destruct (dualChar b) as [d|] eqn:Hd.
  - repeat case_match; reflexivity.
  - repeat case_match; simpl; try reflexivity; exfalso; apply Hn;
      (split; [reflexivity|]);
      match goal with H : String.eqb _ _ = true |- _ => apply String.eqb_eq in H; rewrite H end;
      simpl; tauto.
Qed.

(** C9: every dual-mode button of the keyboard inserts the variant the
    shift flag selects and leaves the keyboard state as it is; the "! %"
    button inserts "!" unshifted and "%" shifted. *)
Theorem dual_button_follows_shift :
  (forall k b d, In b all_buttons -> dualChar b = Some d ->
     handleButtonClick true k b =
       mkClick k [if isShiftActive k then secondaryLatex d else primaryLatex d]) /\
  (forall k b, In b all_buttons -> latex b = "DUAL_EXCLAIM_PERCENT" ->
     dispatched (handleButtonClick true k b) = [if isShiftActive k then "%" else "!"]).
Proof.
  split.
  - intros k b d Hin Hd. exact (dual_button_click true k b d Hin Hd).
  - intros k b Hin Hl.
    pose proof (proj1 (forallb_forall _ _) all_exclaim_plain b Hin) as Hp.
    unfold exclaim_plain in Hp. rewrite Hl in Hp. simpl in Hp.
    destruct (dualChar b) as [d|] eqn:Hd; [|discriminate].
    apply andb_true_iff in Hp as [H1 H2].
    apply String.eqb_eq in H1, H2.
    rewrite (dual_button_click true k b d Hin Hd). simpl.
    rewrite H1, H2. reflexivity.
Qed.

(** C10 (amended): a letter button of the keyboard clears an active shift;
    a dual-mode button changes no keyboard state; SHIFT toggles the flag,
    123_MODE clears it, and every other button leaves it as it is. *)
Theorem shift_flag_transitions :
  (forall ctx k b, In b all_buttons -> type b = TLetter ->
     isShiftActive (kb_after (handleButtonClick ctx k b)) = false) /\
  (forall ctx k b, In b all_buttons -> dualChar b <> None ->
     kb_after (handleButtonClick ctx k b) = k) /\
  (forall ctx k b, dualChar b = None -> type b <> TLetter ->
     latex b <> "SHIFT" -> latex b <> "123_MODE" ->
     isShiftActive (kb_after (handleButtonClick ctx k b)) = isShiftActive k) /\
  (forall ctx k b, dualChar b = None -> latex b = "SHIFT" ->
     isShiftActive (kb_after (handleButtonClick ctx k b)) = negb (isShiftActive k)) /\
  (forall ctx k b, dualChar b = None -> latex b = "123_MODE" ->
     isShiftActive (kb_after (handleButtonClick ctx k b)) = false).
Proof.
  split; [|split; [|split; [|split]]].
  - intros ctx k b Hin Ht.
    pose proof (proj1 (forallb_forall _ _) all_letters_plain b Hin) as Hp.
    unfold letter_plain in Hp. rewrite Ht in Hp. simpl in Hp.
    destruct (dualChar b) as [d|] eqn:Hd; [discriminate|].
    rewrite (handle_plain ctx k b Hd Hp), Ht. simpl.
    destruct (isShiftActive k) eqn:Hs; [reflexivity|exact Hs].
  - intros ctx k b Hin Hd. destruct (dualChar b) as [d|] eqn:Hd'; [|congruence].
    by rewrite (dual_button_click ctx k b d Hin Hd').
  - intros ctx k b Hd Ht Hs H1. unfold handleButtonClick. rewrite Hd.
    repeat case_match; simpl; try reflexivity; exfalso;
      repeat match goal with H : String.eqb _ _ = true |- _ => apply String.eqb_eq in H end;
      try congruence.
    match goal with H : (is_letter ?t && _) = true |- _ => destruct t; simpl in H; congruence end.
  - intros ctx k b Hd Hl. unfold handleButtonClick. by rewrite Hd, Hl.
  - intros ctx k b Hd Hl. unfold handleButtonClick. by rewrite Hd, Hl.
Qed.

(** C8: the SPEAK button is neither a mode/shift/panel toggle nor forwarded. *)
Lemma speak_button_not_dispatched :
  In speak_button all_buttons /\ latex speak_button = "SPEAK" /\
  dualChar speak_button = None /\
  forall k, dispatched (handleButtonClick true k speak_button) = [].
Proof.
  split; [in_table|]. split; [reflexivity|]. split; [reflexivity|].
  intros k. reflexivity.
Qed.

(** The 123_MODE button: first button of the fourth ABC row. *)
Definition mode123_button : ButtonConfig :=
  nth 0 (nth 3 abcKeyboardRows []) (mkButton "" "" TAction None None None None).

(** C10: a non-letter, non-dual button other than SHIFT clears the shift flag. *)
Lemma mode123_clears_shift :
  In mode123_button all_buttons /\ type mode123_button = TAction /\
  dualChar mode123_button = None /\ latex mode123_button <> "SHIFT" /\
  isShiftActive (kb_after (handleButtonClick true (set_shift true k0) mode123_button)) = false.
Proof.
  split; [in_table|]. split; [reflexivity|]. split; [reflexivity|].
  split; [discriminate|reflexivity].
Qed.

Definition exclaim_button : ButtonConfig :=
  nth 2 (nth 3 abcKeyboardRows []) (mkButton "" "" TAction None None None None).

Lemma button_dispatch_table_witness :
  length (dispatched (handleButtonClick true k0 exclaim_button)) = 1.
Proof.
  apply (proj2 (proj2 (proj2 (proj2 (proj2 (button_dispatch_table k0 exclaim_button)))))).
  intros [Hd _]. discriminate.
Defined.

Lemma dual_button_follows_shift_witness :
  dispatched (handleButtonClick true (set_shift true k0) exclaim_button) = ["%"].
Proof.
  apply (proj2 dual_button_follows_shift); [in_table|reflexivity].
Defined.

Lemma shift_flag_transitions_witness :
  isShiftActive (kb_after (handleButtonClick true (set_shift true k0)
    (mkButton "q" "q" TLetter (Some White) None None None))) = false.
Proof.
  apply (proj1 shift_flag_transitions); [in_table|reflexivity].
Defined.

End KeyboardFacts.

(* ================================================================= *)
(** * Properties of the MathInput mount *)
(* ================================================================= *)

Module MathInputFacts.

Import MathInput.

(** MathQuill is loaded but [MQ.MathField] throws an [Error]; a provider is present. *)
Definition env_throw : mount_env :=
  mkEnv "math-input-1" true (Some (ThrownError "boom")) true true false false.

Example mount_throw :
  mount env_throw =
  mkMount false
    [EffOnError "boom"; EffConsoleError "Failed to initialize MathQuill:";
     EffRegister "math-input-1"] false false.
Proof. reflexivity. Qed.

(** C6 (amended): when the field is not created on mount, the adapter still
    registers its handler whenever a provider is present, is not made
    non-interactive (only the [disabled] prop marks it), and the handler it
    registered does nothing; an [Error] thrown by the construction is passed
    to [onError] when one is given, and anything thrown is logged with
    [console.error]. *)
Theorem failed_init_still_registers env :
  field_ready (mount env) = false ->
  (In (EffRegister (inputId env)) (effects (mount env)) <-> hasContext env = true) /\
  container_noninteractive (mount env) = false /\
  wrapper_disabled_class (mount env) = disabled env /\
  (forall latex, handleKeyboardInsertion (field_ready (mount env)) latex = []) /\
  (forall m, mq_loaded env = true -> mathfield_throws env = Some (ThrownError m) ->
     onError_given env = true -> In (EffOnError m) (effects (mount env))) /\
  (forall t, mq_loaded env = true -> mathfield_throws env = Some t ->
     In (EffConsoleError "Failed to initialize MathQuill:") (effects (mount env))).
Proof.
  destruct env as [id mq t oe ctx dis ro].
  unfold mount, init_effect, registration_effect, disabled_effect; simpl.
  destruct mq, t as [[m|]|], oe, ctx; simpl; intros Hr; try discriminate;
    repeat split; intros; simplify_eq; simpl in *; intuition congruence.
Qed.

(** C6: the construction throws, yet the handler is registered and the field
    is not rendered non-interactive. *)
Lemma throwing_init_registers_handler :
  field_ready (mount env_throw) = false /\
  In (EffOnError "boom") (effects (mount env_throw)) /\
  In (EffRegister "math-input-1") (effects (mount env_throw)) /\
  container_noninteractive (mount env_throw) = false /\
  wrapper_disabled_class (mount env_throw) = false.
Proof. vm_compute. tauto. Qed.

Lemma failed_init_still_registers_witness :
  In (EffRegister "math-input-1") (effects (mount env_throw)).
Proof. apply (proj1 (failed_init_still_registers env_throw eq_refl)). reflexivity. Defined.

End MathInputFacts.

(* ================================================================= *)
(** * Further properties of the coordinator and of MathInput *)
(* ================================================================= *)

Module CoordinatorMore.

Import Provider.
Local Open Scope list_scope.

Section More.

Context {Cb : Type}.
Implicit Types (s : provider Cb) (evs : list (event Cb)).

(** Dispatch invokes at most one handler: the one stored in the map under
    the id held by the ref, with the dispatched string unchanged. *)
Theorem dispatch_targets_ref_entry s l :
  length (out_calls (insertAtCursor s l)) <= 1 /\
  (forall cb l', In (cb, l') (out_calls (insertAtCursor s l)) ->
     l' = l /\ exists id, truthy_id (activeInputIdRef s) = Some id /\
                         inputCallbacks s !! id = Some cb).
Proof.
  unfold insertAtCursor.
  destruct (truthy_id (activeInputIdRef s)) as [id|] eqn:Ht; simpl.
  - destruct (inputCallbacks s !! id) as [cb0|] eqn:Hc; simpl.
    + split; [lia|]. intros cb l' [[= <- <-]|[]]. eauto.
    + split; [lia|]. intros ? ? [].
  - split; [lia|]. intros ? ? [].
Qed.

(** [setActiveInput] only queues a state update: until the provider
    re-renders, dispatch behaves exactly as before the call. *)
Theorem setActive_invisible_until_render s id l :
  insertAtCursor (setActiveInput id s) l =
    let o := insertAtCursor s l in
    mkOut (setActiveInput id s) (out_console o) (out_calls o).
Proof.
  unfold insertAtCursor. simpl.
  destruct (truthy_id (activeInputIdRef s)); [destruct (_ !! _)|]; reflexivity.
Qed.

(** The handler map is a ref, not state: registering a handler for the id
    the ref holds makes dispatch reach it at once, without a re-render. *)
Theorem register_visible_immediately s id cb l :
  truthy_id (activeInputIdRef s) = Some id ->
  out_calls (insertAtCursor (registerInput id cb s) l) = [(cb, l)].
Proof.
  intros Ht. unfold insertAtCursor. simpl. rewrite Ht. by rewrite lookup_insert_eq.
Qed.

Lemma binding_fold_none evs id :
  (forall cb, ~ In (ERegister id cb) evs) ->
  fold_left (ProviderFacts.binding_step id) evs None = None.
Proof.
  induction evs as [|e evs IH]; intros Hno; [reflexivity|]. simpl.
  assert (Hstep : ProviderFacts.binding_step id None e = None).
  { destruct e as [id' cb| id'| | |]; simpl; try case_decide; try reflexivity.
    subst. exfalso. apply (Hno cb). by left. }
  rewrite Hstep. apply IH. intros cb Hin. apply (Hno cb). by right.
Qed.

(** Once [id] is unregistered, no later dispatch invokes a handler for it
    until [id] is registered again, even while the ref still holds [id]. *)
Theorem unregistered_id_gets_no_dispatch evs s id l :
  (forall cb, ~ In (ERegister id cb) evs) ->
  truthy_id (activeInputIdRef (run evs (unregisterInput id s))) = Some id ->
  out_calls (insertAtCursor (run evs (unregisterInput id s)) l) = [].
Proof.
  intros Hno Ht. unfold insertAtCursor. rewrite Ht.
  rewrite ProviderFacts.lookup_run. simpl. rewrite lookup_delete_eq.
  by rewrite binding_fold_none.
Qed.

End More.

Lemma dispatch_targets_ref_entry_witness :
  exists id, truthy_id (activeInputIdRef (render (run [ERegister "A" 7; ESetActive "A"] initial)))
               = Some id /\
             inputCallbacks (render (run [ERegister "A" 7; ESetActive "A"] initial)) !! id
               = Some 7.
Proof.
  refine (proj2 (proj2 (dispatch_targets_ref_entry
            (render (run [ERegister "A" 7; ESetActive "A"] initial)) "x") 7 "x" _)).
  left. reflexivity.
Defined.

Lemma register_visible_immediately_witness :
  out_calls (insertAtCursor
    (registerInput "A" 7 (render (run [ESetActive "A"] (initial (Cb:=nat))))) "x") = [(7, "x")].
Proof. apply register_visible_immediately. reflexivity. Defined.

Lemma unregistered_id_gets_no_dispatch_witness :
  out_calls (insertAtCursor
    (run [ERegister "B" 2] (unregisterInput "A" (render (run [ERegister "A" 1; ESetActive "A"]
      (initial (Cb:=nat)))))) "x") = [].
Proof.
  apply unregistered_id_gets_no_dispatch.
  - intros cb [H|[]]. discriminate.
  - reflexivity.
Defined.

End CoordinatorMore.

Module MathInputMore.

Import MathInput MathInputUI.
Local Open Scope list_scope.

(** The id an adapter registers and activates is never empty (so the
    Coordinator's truthiness test on it never fails), and it is the [id]
    prop whenever that prop is a non-empty string. *)
Theorem inputId_nonempty id suffix :
  inputId_of id suffix <> "" /\
  (forall i, id = Some i -> i <> "" -> inputId_of id suffix = i).
Proof.
  split.
  - unfold inputId_of. destruct id as [i|]; [destruct (String.eqb_spec i "")|];
      try discriminate; auto.
  - intros i -> Hi. simpl. destruct (String.eqb_spec i ""); [contradiction|reflexivity].
Qed.

Lemma inputId_nonempty_witness : inputId_of (Some "eq1") "k3j9x" = "eq1".
Proof. apply (proj2 (inputId_nonempty (Some "eq1") "k3j9x")); [reflexivity|discriminate]. Defined.

(** An adapter whose id came from [inputId_of], once activated and
    re-rendered, receives the Coordinator's dispatch. *)
Theorem adapter_receives_dispatch_after_focus {Cb : Type} (s : Provider.provider Cb)
    id suffix cb l :
  Provider.inputCallbacks s !! inputId_of id suffix = Some cb ->
  Provider.out_calls
    (Provider.insertAtCursor (Provider.render (Provider.setActiveInput (inputId_of id suffix) s)) l)
  = [(cb, l)].
Proof.
  intros Hcb. unfold Provider.insertAtCursor, Provider.render.
  rewrite ProviderFacts.next_active_setActiveInput. simpl.
  destruct (String.eqb_spec (inputId_of id suffix) "") as [He|_].
  - exfalso. exact (proj1 (inputId_nonempty id suffix) He).
  - by rewrite Hcb.
Qed.

Lemma adapter_receives_dispatch_after_focus_witness :
  Provider.out_calls (Provider.insertAtCursor
    (Provider.render (Provider.setActiveInput (inputId_of None "k3j9x")
      (Provider.registerInput "math-input-k3j9x" 5 Provider.initial))) "x") = [(5, "x")].
Proof. apply adapter_receives_dispatch_after_focus. reflexivity. Defined.

(** In controlled mode an edit is reported through [onChange] and not
    stored; when the parent passes the reported value back as [value], the
    controlled-value effect writes nothing, and any other value is written
    so the field shows it. *)
Theorem controlled_echo_round_trip :
  (forall l, edit_handler true true l = mkEdit None [l]) /\
  (forall l, sync_controlled true true l l = None) /\
  (forall f v, field_after_sync true true f v = v) /\
  (forall f v, f <> v -> sync_controlled true true f v = Some v).
Proof.
  split; [reflexivity|]. split; [|split].
  - intros l. unfold sync_controlled. simpl. by rewrite String.eqb_refl.
  - intros f v. unfold field_after_sync, sync_controlled. simpl.
    destruct (String.eqb_spec f v); congruence.
  - intros f v Hne. unfold sync_controlled. simpl.
    destruct (String.eqb_spec f v); congruence.
Qed.

Lemma controlled_echo_round_trip_witness :
  sync_controlled true true "x^2" "x^3" = Some "x^3".
Proof. apply (proj2 (proj2 (proj2 controlled_echo_round_trip))). discriminate. Defined.

(** When the field is created on mount, no error is reported, the adapter
    registers exactly when a provider is present, and the disabled/readOnly
    effect makes the field non-interactive exactly when one of the props
    is set. *)
Theorem successful_mount env :
  field_ready (mount env) = true ->
  (forall m, ~ In (EffOnError m) (effects (mount env))) /\
  (forall m, ~ In (EffConsoleError m) (effects (mount env))) /\
  (In (EffRegister (inputId env)) (effects (mount env)) <-> hasContext env = true) /\
  container_noninteractive (mount env) = disabled env || readOnly env.
Proof.
  destruct env as [id mq t oe ctx dis ro].
  unfold mount, init_effect, registration_effect, disabled_effect; simpl.
  destruct mq, t as [[m|]|], oe, ctx; simpl; intros Hr; try discriminate;
    repeat split; intros; simpl in *; intuition congruence.
Qed.

Lemma successful_mount_witness :
  container_noninteractive (mount (mkEnv "a" true None false true true false)) = true.
Proof.
  rewrite (proj2 (proj2 (proj2 (successful_mount (mkEnv "a" true None false true true false)
            eq_refl)))).
  reflexivity.
Defined.

End MathInputMore.

Module KeyboardMore.

Import Keyboard MathKeyboard KeyboardUI KeyboardFacts.
Local Open Scope list_scope.

(** Showing then hiding the keyboard, or hiding then showing it, comes back
    to the same mode and shift flag with the functions panel closed; each
    toggle reports the new visibility to [onVisibilityChange]. *)
Theorem toggle_twice_closes_panel h k :
  fst (toggleKeyboard h (fst (toggleKeyboard h k))) = set_functions_open false k /\
  snd (toggleKeyboard h k) = (if h then [negb (isVisible k)] else []).
Proof.
  destruct k as [[] m sh f]; split; reflexivity.
Qed.

(** A mousedown inside the keyboard or on a math input, or any mousedown
    while the keyboard is hidden, changes nothing and reports nothing; any
    other mousedown hides the visible keyboard, closes the functions panel,
    keeps mode and shift, and reports [false]. *)
Theorem click_outside_hides_only_outside h k t :
  ((isVisible k = false \/ in_keyboard t = true \/ in_math_input t = true) ->
     handleClickOutside h k t = (k, [])) /\
  (isVisible k = true -> in_keyboard t = false -> in_math_input t = false ->
     handleClickOutside h k t =
       (mkKb false (keyboardMode k) (isShiftActive k) false, if h then [false] else [])).
Proof.
  unfold handleClickOutside. split.
  - intros [H|[H|H]]; rewrite H; simpl;
      destruct (isVisible k), (in_keyboard t), (in_math_input t); try discriminate; reflexivity.
  - intros H1 H2 H3. by rewrite H1, H2, H3.
Qed.

Lemma click_outside_hides_only_outside_witness :
  handleClickOutside true k0 (mkTarget false false) = (mkKb false ModeAbc false false, [false]).
Proof. apply (proj2 (click_outside_hides_only_outside true k0 (mkTarget false false))); reflexivity. Defined.

(** Leaving ABC mode with 123_MODE clears shift, so the next ABC_MODE shows
    the lower-case rows, whatever the shift flag was. *)
Theorem abc_reentry_is_lowercase ctx k b123 babc :
  isVisible k = true ->
  dualChar b123 = None -> latex b123 = "123_MODE" ->
  dualChar babc = None -> latex babc = "ABC_MODE" ->
  rendered_buttons
    (kb_after (handleButtonClick ctx (kb_after (handleButtonClick ctx k b123)) babc))
  = concat abcKeyboardRows.
Proof.
  intros Hv H1 H2 H3 H4. unfold handleButtonClick. rewrite H1, H2. simpl.
  rewrite H3, H4. unfold rendered_buttons. simpl. by rewrite Hv.
Qed.

Lemma abc_reentry_is_lowercase_witness :
  rendered_buttons (kb_after (handleButtonClick true
    (kb_after (handleButtonClick true (set_shift true k0) mode123_button))
    (nth 0 (nth 3 defaultLeftSection []) mode123_button)))
  = concat abcKeyboardRows.
Proof. apply abc_reentry_is_lowercase; reflexivity. Defined.

Lemma ascii_upper_idem c : ascii_upper (ascii_upper c) = ascii_upper c.
Proof. destruct c as [[] [] [] [] [] [] [] []]; reflexivity. Qed.

Lemma toUpperCase_idem s : toUpperCase (toUpperCase s) = toUpperCase s.
Proof. induction s as [|c s IH]; simpl; [reflexivity|]. by rewrite ascii_upper_idem, IH. Qed.

(** The shift transformation of [getUppercaseAbcKeyboard] is idempotent on
    every button: letters are already upper case and SUPERSCRIPT is not
    swapped back. *)
Theorem upper_button_idempotent b : upper_button (upper_button b) = upper_button b.
Proof.
  destruct b as [d l t st sz desc dc]. unfold upper_button. simpl.
  destruct t; simpl; try by rewrite !toUpperCase_idem.
  all: destruct (String.eqb_spec l "SUBSCRIPT"); simpl; [reflexivity|];
       destruct (String.eqb_spec l "SUBSCRIPT"); [contradiction|reflexivity].
Qed.

(** On screen, the subscript key is only shown in ABC mode: unshifted it is
    SUBSCRIPT and inserts a subscript block, shifted it is SUPERSCRIPT and
    inserts a superscript block. *)
Definition script_ok (expected : string) (b : ButtonConfig) : bool :=
  if (match dualChar b with None => true | Some _ => false end) &&
     (String.eqb (latex b) "SUBSCRIPT" || String.eqb (latex b) "SUPERSCRIPT")
  then String.eqb (latex b) expected else true.

Definition script_absent (b : ButtonConfig) : bool := script_ok "" b.

Lemma script_key_rendered_abc k b :
  In b (rendered_buttons k) -> dualChar b = None ->
  latex b = "SUBSCRIPT" \/ latex b = "SUPERSCRIPT" ->
  keyboardMode k = ModeAbc /\
  latex b = (if isShiftActive k then "SUPERSCRIPT" else "SUBSCRIPT").
Proof.
  intros Hin Hd Hl. unfold rendered_buttons in Hin.
  assert (Hchk : forall (l : list ButtonConfig) e, forallb (script_ok e) l = true ->
             In b l -> latex b = e).
  { intros l e Hf Hb. pose proof (proj1 (forallb_forall _ _) Hf b Hb) as Hp.
    unfold script_ok in Hp. rewrite Hd in Hp.
    assert (Hc : (String.eqb (latex b) "SUBSCRIPT" || String.eqb (latex b) "SUPERSCRIPT") = true)
      by (destruct Hl as [Hl|Hl]; rewrite Hl; reflexivity).
    rewrite Hc in Hp. simpl in Hp. apply String.eqb_eq in Hp. exact Hp. }
  destruct (isVisible k); [|destruct Hin].
  destruct (keyboardMode k).
  - assert (He : latex b = "") by (eapply Hchk; [|exact Hin]; vm_compute; reflexivity).
    destruct Hl; congruence.
  - split; [reflexivity|].
    destruct (isShiftActive k); (eapply Hchk; [|exact Hin]; vm_compute; reflexivity).
Qed.

Theorem script_key_follows_shift k b :
  In b (rendered_buttons k) -> dualChar b = None ->
  latex b = "SUBSCRIPT" \/ latex b = "SUPERSCRIPT" ->
  keyboardMode k = ModeAbc /\
  dispatched (handleButtonClick true k b) =
    [if isShiftActive k then "SUPERSCRIPT_BLOCK" else "SUBSCRIPT_BLOCK"].
Proof.
  intros Hin Hd Hl. destruct (script_key_rendered_abc k b Hin Hd Hl) as [Hm Hlat].
  split; [exact Hm|]. unfold handleButtonClick. rewrite Hd, Hlat.
  destruct (isShiftActive k); reflexivity.
Qed.

Definition superscript_button : ButtonConfig :=
  nth 1 (nth 3 getUppercaseAbcKeyboard []) mode123_button.

Lemma script_key_follows_shift_witness :
  dispatched (handleButtonClick true (set_shift true k0) superscript_button) =
    ["SUPERSCRIPT_BLOCK"].
Proof.
  apply (script_key_follows_shift (set_shift true k0) superscript_button);
    [in_table|reflexivity|right; reflexivity].
Defined.

Lemma active_class_iff k b :
  In "dcg-active" (innerClassList k b) <-> String.eqb (latex b) "SHIFT" && isShiftActive k = true.
Proof.
  unfold innerClassList, filter_classes, when_class.
  destruct (style_is Blue b), (style_is GrayLight b), (style_is White b),
    (String.eqb (latex b) "SHIFT" && isShiftActive k); simpl;
    split; intros H; intuition discriminate.
Qed.

Definition no_shift_key (b : ButtonConfig) : bool := negb (String.eqb (latex b) "SHIFT").

(** The highlighted ([dcg-active]) key is on screen exactly when the
    keyboard is visible, in ABC mode, with shift active. *)
Theorem active_highlight_iff_shift k :
  (exists b, In b (rendered_buttons k) /\ In "dcg-active" (innerClassList k b)) <->
  isVisible k = true /\ keyboardMode k = ModeAbc /\ isShiftActive k = true.
Proof.
  split.
  - intros (b & Hin & Hc). apply active_class_iff, andb_true_iff in Hc as [Hs Hsh].
    unfold rendered_buttons in Hin.
    destruct (isVisible k); [|destruct Hin].
    destruct (keyboardMode k); [|tauto].
    assert (Hf : forallb no_shift_key
                   (concat defaultLeftSection ++ concat defaultMiddleSection
                    ++ concat defaultRightSection) = true) by (vm_compute; reflexivity).
    pose proof (proj1 (forallb_forall _ _) Hf b Hin) as Hp.
    unfold no_shift_key in Hp. rewrite Hs in Hp. discriminate.
  - intros (Hv & Hm & Hsh).
    exists (nth 0 (nth 2 getUppercaseAbcKeyboard []) mode123_button). split.
    + unfold rendered_buttons. rewrite Hv, Hm, Hsh. in_table.
    + apply active_class_iff. rewrite Hsh. reflexivity.
Qed.

(** A key carries the [dcg-active] class exactly when it is the SHIFT key
    and shift is active. *)
Theorem shift_key_carries_active_class k b :
  In "dcg-active" (innerClassList k b) <-> latex b = "SHIFT" /\ isShiftActive k = true.
Proof.
  rewrite active_class_iff, andb_true_iff, String.eqb_eq. reflexivity.
Qed.

Lemma active_highlight_iff_shift_witness :
  exists b, In b (rendered_buttons (set_shift true k0)) /\
            In "dcg-active" (innerClassList (set_shift true k0) b).
Proof. apply (proj2 (active_highlight_iff_shift (set_shift true k0))). auto. Defined.

(** On every dual-character key, exactly one of the two spans is shown
    clear, and a click inserts the LaTeX of the clear one. *)
Theorem dual_clear_span_is_inserted k b d :
  In b all_buttons -> dualChar b = Some d ->
  (dual_primary_class k = "dcg-dual-primary dcg-clear" <->
   dual_secondary_class k = "dcg-dual-secondary dcg-blurred") /\
  dispatched (handleButtonClick true k b) =
    [if String.eqb (dual_primary_class k) "dcg-dual-primary dcg-clear"
     then primaryLatex d else secondaryLatex d].
Proof.
  intros Hin Hd. rewrite (dual_button_click true k b d Hin Hd).
  unfold dual_primary_class, dual_secondary_class.
  destruct (isShiftActive k); simpl;
    (split; [split; intros H; first [reflexivity | inversion H] | reflexivity]).
Qed.

Lemma dual_clear_span_is_inserted_witness :
  dispatched (handleButtonClick true k0 exclaim_button) = ["!"].
Proof.
  rewrite (proj2 (dual_clear_span_is_inserted k0 exclaim_button (mkDual "!" "!" "%" "%")
             ltac:(in_table) eq_refl)).
  reflexivity.
Defined.

End KeyboardMore.

Module PipelineFacts.

Import Keyboard MathKeyboard KeyboardFacts MathInput MathInputUI.
Local Open Scope list_scope.

(** The commands [handleKeyboardInsertion] turns into field operations, and
    the keyboard's local action names. *)
Definition mq_tokens : list string :=
  ["BACKSPACE"; "ARROW_LEFT"; "ARROW_RIGHT"; "ENTER"; "SUBSCRIPT_BLOCK"; "SUPERSCRIPT_BLOCK"].

Definition local_tokens : list string :=
  ["ABC_MODE"; "123_MODE"; "SHIFT"; "SUBSCRIPT"; "SUPERSCRIPT"; "FUNCTIONS"; "SPEAK"].

Definition control_tokens : list string := local_tokens ++ mq_tokens.

Definition avoids (l : string) (L : list string) : bool :=
  forallb (fun m => negb (String.eqb l m)) L.

Lemma avoids_not_in l L : avoids l L = true -> ~ In l L.
Proof.
  intros H Hin. pose proof (proj1 (forallb_forall _ _) H l Hin) as Hl.
  cbv beta in Hl. rewrite String.eqb_refl in Hl. discriminate.
Qed.

Lemma deliver_route (s : Provider.provider bool) l :
  deliver s l =
    match Provider.truthy_id (Provider.activeInputIdRef s) with
    | Some id =>
        match Provider.inputCallbacks s !! id with
        | Some r => handleKeyboardInsertion r l
        | None => []
        end
    | None => []
    end.
Proof.
  unfold deliver, Provider.insertAtCursor.
  destruct (Provider.truthy_id _); [destruct (_ !! _)|]; simpl; try rewrite app_nil_r; reflexivity.
Qed.

Lemma write_only_plain r l t :
  In (Write t) (handleKeyboardInsertion r l) -> t = l /\ avoids l mq_tokens = true.
Proof.
  unfold handleKeyboardInsertion. destruct r; cbn [negb]; [|intros []].
  destruct (String.eqb l "BACKSPACE") eqn:E1; [intros [H|[]]; discriminate|].
  destruct (String.eqb l "ARROW_LEFT") eqn:E2; [intros [H|[]]; discriminate|].
  destruct (String.eqb l "ARROW_RIGHT") eqn:E3; [intros [H|[]]; discriminate|].
  destruct (String.eqb l "ENTER") eqn:E4; [intros [H|[]]; discriminate|].
  destruct (String.eqb l "SUBSCRIPT_BLOCK") eqn:E5; [intros [H|[H|[]]]; discriminate|].
  destruct (String.eqb l "SUPERSCRIPT_BLOCK") eqn:E6; [intros [H|[H|[]]]; discriminate|].
  intros [H|[H|[]]]; [|discriminate]. injection H as <-. split; [reflexivity|].
  unfold avoids, mq_tokens. cbn [forallb]. by rewrite E1, E2, E3, E4, E5, E6.
Qed.

Lemma dispatched_shift_only ctx k b :
  dispatched (handleButtonClick ctx k b) =
  dispatched (handleButtonClick ctx (mkKb true ModeDefault (isShiftActive k) false) b).
Proof. unfold handleButtonClick. simpl. repeat case_match; reflexivity. Qed.

Definition dispatch_clean (b : ButtonConfig) : bool :=
  forallb (fun sh =>
    forallb (fun l => avoids l local_tokens)
      (dispatched (handleButtonClick true (mkKb true ModeDefault sh false) b))) [true; false].

Lemma all_dispatch_clean : forallb dispatch_clean all_buttons = true.
Proof. vm_compute. reflexivity. Qed.

(** Whatever the Coordinator's state, no key of the keyboard makes the
    active field write one of the command names (the keyboard's own action
    names, or the navigation and block commands) as LaTeX. *)
Theorem no_command_name_written s k b :
  In b all_buttons ->
  forall t, In (Write t) (click_to_ops s k b) -> ~ In t control_tokens.
Proof.
  intros Hb t Ht. unfold click_to_ops in Ht.
  apply in_flat_map in Ht as (l & Hl & Hw).
  rewrite deliver_route in Hw.
  destruct (Provider.truthy_id _) as [id|]; [|destruct Hw].
  destruct (_ !! id) as [r|]; [|destruct Hw].
  apply write_only_plain in Hw as [-> Hmq].
  pose proof (proj1 (forallb_forall _ _) all_dispatch_clean b Hb) as Hc.
  unfold dispatch_clean in Hc.
  rewrite dispatched_shift_only in Hl.
  assert (Hloc : avoids l local_tokens = true).
  { assert (Hs : In (isShiftActive k) [true; false])
      by (destruct (isShiftActive k); simpl; auto).
    pose proof (proj1 (forallb_forall _ _) Hc _ Hs) as Hk.
    exact (proj1 (forallb_forall _ _) Hk l Hl). }
  unfold control_tokens. rewrite in_app_iff.
  intros [H|H]; [exact (avoids_not_in _ _ Hloc H)|exact (avoids_not_in _ _ Hmq H)].
Qed.

Lemma no_command_name_written_witness :
  ~ In "x" control_tokens.
Proof.
  apply (no_command_name_written
           (Provider.render (Provider.run [Provider.ERegister "a" true; Provider.ESetActive "a"]
              Provider.initial))
           KeyboardFacts.k0 (mkButton "x" "x" TLetter (Some White) None None None));
    [in_table|vm_compute; left; reflexivity].
Defined.

Lemma plain_insertion l :
  ~ In l mq_tokens -> handleKeyboardInsertion true l = [Write l; Focus].
Proof.
  intros Hn. unfold handleKeyboardInsertion. cbn [negb].
  destruct (String.eqb_spec l "BACKSPACE") as [->|_]; [exfalso; apply Hn; simpl; tauto|].
  destruct (String.eqb_spec l "ARROW_LEFT") as [->|_]; [exfalso; apply Hn; simpl; tauto|].
  destruct (String.eqb_spec l "ARROW_RIGHT") as [->|_]; [exfalso; apply Hn; simpl; tauto|].
  destruct (String.eqb_spec l "ENTER") as [->|_]; [exfalso; apply Hn; simpl; tauto|].
  destruct (String.eqb_spec l "SUBSCRIPT_BLOCK") as [->|_]; [exfalso; apply Hn; simpl; tauto|].
  destruct (String.eqb_spec l "SUPERSCRIPT_BLOCK") as [->|_]; [exfalso; apply Hn; simpl; tauto|].
  reflexivity.
Qed.

(** A literal key (no dual character, not a [switch] case) writes its LaTeX
    into the active field and refocuses it when that field exists, and does
    nothing to it otherwise. *)
Theorem literal_key_writes_latex (s : Provider.provider bool) k b id (r : bool) :
  Provider.truthy_id (Provider.activeInputIdRef s) = Some id ->
  Provider.inputCallbacks s !! id = Some r ->
  dualChar b = None ->
  forallb (fun l => negb (String.eqb (latex b) l)) special_latex = true ->
  ~ In (latex b) mq_tokens ->
  click_to_ops s k b = if r then [Write (latex b); Focus] else [].
Proof.
  intros Ht Hc Hd Hl Hn. unfold click_to_ops.
  rewrite (handle_plain true k b Hd Hl).
  assert (Hdisp : flat_map (deliver s) (insert true (latex b)) =
                  if r then [Write (latex b); Focus] else []).
  { simpl. rewrite app_nil_r, deliver_route, Ht, Hc.
    destruct r; [by apply plain_insertion|reflexivity]. }
  destruct (is_letter (type b) && isShiftActive k); exact Hdisp.
Qed.

Lemma literal_key_writes_latex_witness :
  click_to_ops (Provider.render (Provider.run [Provider.ERegister "a" true; Provider.ESetActive "a"]
                  Provider.initial))
    KeyboardFacts.k0 (mkButton "7" "7" TNumber (Some GrayLight) None None None)
  = [Write "7"; Focus].
Proof.
  refine (literal_key_writes_latex _ _ (mkButton "7" "7" TNumber (Some GrayLight) None None None)
            "a" true _ _ _ _ _); try reflexivity.
  simpl. intuition discriminate.
Defined.

(** The navigation keys reach the active field as keystrokes, ENTER blurs
    it and the subscript key opens a subscript block, instead of writing
    their names; a field that does not exist receives nothing. *)
Theorem command_keys_become_field_operations (s : Provider.provider bool) k b id (r : bool) :
  Provider.truthy_id (Provider.activeInputIdRef s) = Some id ->
  Provider.inputCallbacks s !! id = Some r ->
  dualChar b = None ->
  (latex b = "BACKSPACE" -> click_to_ops s k b = if r then [Keystroke "Backspace"] else []) /\
  (latex b = "ARROW_LEFT" -> click_to_ops s k b = if r then [Keystroke "Left"] else []) /\
  (latex b = "ARROW_RIGHT" -> click_to_ops s k b = if r then [Keystroke "Right"] else []) /\
  (latex b = "ENTER" -> click_to_ops s k b = if r then [Blur] else []) /\
  (latex b = "SUBSCRIPT" -> click_to_ops s k b = if r then [Cmd "_"; Focus] else []).
Proof.
  intros Ht Hc Hd.
  unfold click_to_ops, handleButtonClick. rewrite Hd.
  repeat split; intros Hl; rewrite Hl; simpl;
    rewrite app_nil_r, deliver_route, Ht, Hc; destruct r; reflexivity.
Qed.

Lemma command_keys_become_field_operations_witness :
  click_to_ops (Provider.render (Provider.run [Provider.ERegister "a" true; Provider.ESetActive "a"]
                  Provider.initial))
    KeyboardFacts.k0 (mkButton "<-" "ARROW_LEFT" TAction (Some GrayLight) None None None)
  = [Keystroke "Left"].
Proof.
  refine (proj1 (proj2 (command_keys_become_field_operations _ _
            (mkButton "<-" "ARROW_LEFT" TAction (Some GrayLight) None None None)
            "a" true _ _ _)) _); reflexivity.
Defined.

End PipelineFacts.
